(** * repoze.bfg.security: the permission facade and its result types

    A shallow embedding of [src/repoze/bfg/security.py].  The module is
    Python 2 code; the fragment of the Python object model it relies on
    (classes, truth values, the iteration protocol, [%] formatting, raising)
    is written out first, the module itself follows, and the properties of
    the module come last. *)

From Stdlib Require Import String Ascii List ZArith Bool Lia.
Import ListNotations.
Local Open Scope string_scope.

(** ** Classes and values *)

(** The classes that occur in the module.  The [py_] constructors are
    builtin classes, the others are the classes the module defines, and
    [foreign] stands for a class defined elsewhere (the class of a context
    or of a request), taken to derive from [object] directly. *)
Inductive class : Type :=
| py_object
| py_NoneType
| py_int
| py_bool
| py_str
| py_tuple
| py_list
| py_iterator
| AllPermissionsList
| PermitsResult
| Denied
| Allowed
| ACLPermitsResult
| ACLDenied
| ACLAllowed
| foreign (name : string).

Definition class_eq_dec (c d : class) : {c = d} + {c <> d}.
Proof. decide equality; apply string_dec. Defined.

(** Method resolution order: the class followed by its bases. *)
Definition mro (c : class) : list class :=
  match c with
  | py_object => [py_object]
  | py_bool => [py_bool; py_int; py_object]
  | PermitsResult => [PermitsResult; py_int; py_object]
  | Denied => [Denied; PermitsResult; py_int; py_object]
  | Allowed => [Allowed; PermitsResult; py_int; py_object]
  | ACLPermitsResult => [ACLPermitsResult; py_int; py_object]
  | ACLDenied => [ACLDenied; ACLPermitsResult; py_int; py_object]
  | ACLAllowed => [ACLAllowed; ACLPermitsResult; py_int; py_object]
  | c => [c; py_object]
  end.

Definition issubclass (c d : class) : bool :=
  existsb (fun b => if class_eq_dec b d then true else false) (mro c).

Definition class_name (c : class) : string :=
  match c with
  | py_object => "object"
  | py_NoneType => "NoneType"
  | py_int => "int"
  | py_bool => "bool"
  | py_str => "str"
  | py_tuple => "tuple"
  | py_list => "list"
  | py_iterator => "iterator"
  | AllPermissionsList => "AllPermissionsList"
  | PermitsResult => "PermitsResult"
  | Denied => "Denied"
  | Allowed => "Allowed"
  | ACLPermitsResult => "ACLPermitsResult"
  | ACLDenied => "ACLDenied"
  | ACLAllowed => "ACLAllowed"
  | foreign name => name
  end.

Set Warnings "-register-all".

(** Values.  An instance of a subclass of [int] carries its integer value
    [n] next to its attributes; the integer value is fixed when the instance
    is made. *)
Inductive value : Type :=
| VNone
| VBool (b : bool)
| VInt (n : Z)
| VStr (s : string)
| VTuple (items : list value)
| VList (items : list value)
| VIterator (rest : list value)
| VObject (cls_name : string) (id : nat)
| VAllPermissionsList
| VPermitsResult (cls : class) (n : Z) (s : string) (args : list value)
| VACLPermitsResult (cls : class) (n : Z)
    (permission ace acl principals context : value).

Definition class_of (v : value) : class :=
  match v with
  | VNone => py_NoneType
  | VBool _ => py_bool
  | VInt _ => py_int
  | VStr _ => py_str
  | VTuple _ => py_tuple
  | VList _ => py_list
  | VIterator _ => py_iterator
  | VObject name _ => foreign name
  | VAllPermissionsList => AllPermissionsList
  | VPermitsResult cls _ _ _ => cls
  | VACLPermitsResult cls _ _ _ _ _ _ => cls
  end.

Definition isinstance (v : value) (c : class) : bool :=
  issubclass (class_of v) c.

(** Boolean coercion ([bool(v)], [if v:]).  An [int], and so an instance of
    any subclass of [int] that does not override the coercion, is true when
    its integer value is not zero; a class with neither [__nonzero__] nor
    [__len__] gives true instances. *)
Definition truth (v : value) : bool :=
  match v with
  | VNone => false
  | VBool b => b
  | VInt n => negb (n =? 0)%Z
  | VStr s => negb (String.eqb s EmptyString)
  | VTuple items => negb (Nat.eqb (length items) 0)
  | VList items => negb (Nat.eqb (length items) 0)
  | VIterator _ => true
  | VObject _ _ => true
  | VAllPermissionsList => true
  | VPermitsResult _ n _ _ => negb (n =? 0)%Z
  | VACLPermitsResult _ n _ _ _ _ _ => negb (n =? 0)%Z
  end.

(** ** Exceptions and results *)

Inductive exn : Type :=
| TypeError (arg : value)
| ValueError (message : string)
| AttributeError (attribute : string)
| IndexError (message : string)
| NotImplementedError
| OtherError (name : string).

Inductive result (A : Type) : Type :=
| Return (a : A)
| Raise (e : exn).

Arguments Return {A} a.
Arguments Raise {A} e.

Definition result_bind {A B : Type} (r : result A) (k : A -> result B)
  : result B :=
  match r with
  | Return a => k a
  | Raise e => Raise e
  end.

Definition raises {A : Type} (r : result A) : bool :=
  match r with
  | Return _ => false
  | Raise _ => true
  end.

(** ** The [%] operator on a string and a tuple *)

Section Formatting.

(** [convert c v] is what the runtime substitutes for the conversion [%c]
    applied to [v]: [str(v)] for [%s], [repr(v)] for [%r], and so on.  The
    rendering of values belongs to the interpreter and is left open.
    Flags, widths and mapping keys are not part of this fragment. *)
Variable convert : ascii -> value -> result string.

Definition emit (prefix : string) (r : result string) : result string :=
  result_bind r (fun rest => Return (prefix ++ rest)).

Fixpoint format (s : string) (args : list value) : result string :=
  match s with
  | EmptyString =>
      match args with
      | [] => Return EmptyString
      | _ :: _ =>
          Raise (TypeError
            (VStr "not all arguments converted during string formatting"))
      end
  | String c rest =>
      if Ascii.eqb c "%"%char then
        match rest with
        | EmptyString => Raise (ValueError "incomplete format")
        | String d rest' =>
            if Ascii.eqb d "%"%char then emit "%" (format rest' args)
            else
              match args with
              | [] =>
                  Raise (TypeError
                    (VStr "not enough arguments for format string"))
              | a :: args' =>
                  result_bind (convert d a)
                    (fun piece => emit piece (format rest' args'))
              end
        end
      else emit (String c EmptyString) (format rest args)
  end.

Fixpoint plain (s : string) : bool :=
  match s with
  | EmptyString => true
  | String c rest => negb (Ascii.eqb c "%"%char) && plain rest
  end.

End Formatting.

(** ** The iteration protocol *)

(** [is_iterator v]: the class of [v] has a [next] method. *)
Definition is_iterator (v : value) : bool :=
  issubclass (class_of v) py_iterator.

(** ** The module: vocabulary *)

Definition Everyone : value := VStr "system.Everyone".
Definition Authenticated : value := VStr "system.Authenticated".
Definition Allow : value := VStr "Allow".
Definition Deny : value := VStr "Deny".

(** [AllPermissionsList.__iter__], [__contains__] and [__eq__]. *)
Definition AllPermissionsList_iter (self : value) : value :=
  VTuple [].

Definition AllPermissionsList_contains (self other : value) : value :=
  VBool true.

Definition AllPermissionsList_eq (self other : value) : value :=
  VBool (isinstance other (class_of self)).

Definition ALL_PERMISSIONS : value := VAllPermissionsList.
Definition DENY_ALL : value := VTuple [Deny; Everyone; ALL_PERMISSIONS].

(** [iter(v)]: a class with [__iter__] has it called and the outcome must be
    an iterator; the builtin sequences give an iterator over their items;
    anything else is not iterable. *)
Definition iter (v : value) : result value :=
  match v with
  | VAllPermissionsList =>
      let r := AllPermissionsList_iter v in
      if is_iterator r then Return r
      else Raise (TypeError (VStr ("iter() returned non-iterator of type '"
                                     ++ class_name (class_of r) ++ "'")))
  | VTuple items => Return (VIterator items)
  | VList items => Return (VIterator items)
  | VStr s =>
      Return (VIterator
                (map (fun c => VStr (String c EmptyString)) (list_ascii_of_string s)))
  | VIterator _ => Return v
  | _ => Raise (TypeError (VStr ("'" ++ class_name (class_of v)
                                   ++ "' object is not iterable")))
  end.

(** [for x in v: body], the body acting on a state of the loop. *)
Fixpoint for_each {S : Type} (items : list value)
    (body : value -> S -> result S) (st : S) : result S :=
  match items with
  | [] => Return st
  | x :: rest => result_bind (body x st) (for_each rest body)
  end.

Definition for_in {S : Type} (v : value) (body : value -> S -> result S)
    (st : S) : result S :=
  result_bind (iter v)
    (fun it =>
       match it with
       | VIterator items => for_each items body st
       | _ => Raise (AttributeError "next")
       end).

(** [x in ALL_PERMISSIONS] and [ALL_PERMISSIONS == p]: the class of the
    marker defines both methods, so they are called with the marker as
    [self], and the outcome of [__contains__] is coerced to a boolean. *)
Definition in_ALL_PERMISSIONS (x : value) : bool :=
  truth (AllPermissionsList_contains ALL_PERMISSIONS x).

Definition ALL_PERMISSIONS_equals (p : value) : value :=
  AllPermissionsList_eq ALL_PERMISSIONS p.

(** ** The module: result types *)

(** The class attribute [boolval]; the two base classes do not have it. *)
Definition boolval (cls : class) : result Z :=
  match cls with
  | Denied => Return 0%Z
  | Allowed => Return 1%Z
  | ACLDenied => Return 0%Z
  | ACLAllowed => Return 1%Z
  | _ => Raise (AttributeError "boolval")
  end.

(** [PermitsResult.__new__(cls, s, *args)]. *)
Definition PermitsResult_new (cls : class) (s : string) (args : list value)
  : result value :=
  result_bind (boolval cls) (fun n => Return (VPermitsResult cls n s args)).

(** [ACLPermitsResult.__new__(cls, ace, acl, permission, principals,
    context)]. *)
Definition ACLPermitsResult_new (cls : class)
    (ace acl permission principals context : value) : result value :=
  result_bind (boolval cls)
    (fun n => Return (VACLPermitsResult cls n permission ace acl principals
                        context)).

Section Messages.

Variable convert : ascii -> value -> result string.

(** The property [msg] of both families. *)
Definition msg (inst : value) : result string :=
  match inst with
  | VPermitsResult _ _ s args => format convert s args
  | VACLPermitsResult cls _ permission ace acl principals context =>
      format convert
        "%s permission %r via ACE %r in ACL %r on context %r for principals %r"
        [VStr (class_name cls); permission; ace; acl; context; principals]
  | _ => Raise (AttributeError "msg")
  end.

End Messages.

(** ** The component registry and the policies *)

Inductive interface : Type :=
| IAuthenticationPolicy
| IAuthorizationPolicy.

(** Keyword arguments ([**kw]). *)
Definition kwargs : Type := list (string * value).

(** The methods of the two kinds of policy.  A policy is an object supplied
    by the application; each method gives a value or raises. *)
Module AuthenticationPolicy.
Record t : Type := Build {
  effective_principals : value -> value -> result value;
  authenticated_userid : value -> value -> result value;
  remember : value -> value -> value -> kwargs -> result value;
  forget : value -> value -> result value
}.
End AuthenticationPolicy.

Module AuthorizationPolicy.
Record t : Type := Build {
  permits : value -> value -> value -> result value;
  principals_allowed_by_permission : value -> value -> result value
}.
End AuthorizationPolicy.

Definition utility (i : interface) : Type :=
  match i with
  | IAuthenticationPolicy => AuthenticationPolicy.t
  | IAuthorizationPolicy => AuthorizationPolicy.t
  end.

(** The registry holds at most one utility for each interface. *)
Definition registry : Type := forall i : interface, option (utility i).

(** What a call of the facade does besides computing its outcome, in
    order: looking a utility up, calling a method of a policy, warning. *)
Inductive event : Type :=
| Lookup (i : interface)
| Call (i : interface) (method : string) (args : list value) (kw : kwargs)
| Warn (message : string) (stacklevel : Z).

(** Computations of the facade read the registry, record their events and
    give a value or raise. *)
Definition M (A : Type) : Type := registry -> list event * result A.

Definition ret {A : Type} (a : A) : M A :=
  fun _ => ([], Return a).

Definition raise {A : Type} (e : exn) : M A :=
  fun _ => ([], Raise e).

Definition bind {A B : Type} (m : M A) (k : A -> M B) : M B :=
  fun reg =>
    let (t1, r) := m reg in
    match r with
    | Return a => let (t2, r') := k a reg in ((t1 ++ t2)%list, r')
    | Raise e => (t1, Raise e)
    end.

Declare Scope facade_scope.
Delimit Scope facade_scope with facade.
Notation "x <- m ;; k" := (bind m (fun x => k))
  (at level 100, m at next level, right associativity) : facade_scope.
Notation "m ;;; k" := (bind m (fun _ => k))
  (at level 100, right associativity) : facade_scope.
Local Open Scope facade_scope.

Definition queryUtility (i : interface) : M (option (utility i)) :=
  fun reg => ([Lookup i], Return (reg i)).

Definition warn (message : string) (stacklevel : Z) : M unit :=
  fun _ => ([Warn message stacklevel], Return tt).

(** Calling a method of a policy: the call is recorded and its outcome is
    the outcome of the computation. *)
Definition call (i : interface) (method : string) (args : list value)
    (kw : kwargs) (outcome : result value) : M value :=
  fun _ => ([Call i method args kw], outcome).

Definition lift {A : Type} (r : result A) : M A :=
  fun _ => ([], r).

Definition outcome {A : Type} (run : list event * result A) : result A :=
  snd run.

Definition trace {A : Type} (run : list event * result A) : list event :=
  fst run.

(** ** The module: the facade *)

Definition has_permission (permission context request : value) : M value :=
  authn_policy <- queryUtility IAuthenticationPolicy ;;
  match authn_policy with
  | None => lift (PermitsResult_new Allowed "No authentication policy in use." [])
  | Some authn =>
      authz_policy <- queryUtility IAuthorizationPolicy ;;
      match authz_policy with
      | None =>
          raise (ValueError
            "Authentication policy registered without authorization policy")
      | Some authz =>
          principals <-
            call IAuthenticationPolicy "effective_principals"
              [context; request] []
              (AuthenticationPolicy.effective_principals authn context
                 request) ;;
          call IAuthorizationPolicy "permits"
            [context; principals; permission] []
            (AuthorizationPolicy.permits authz context principals permission)
      end
  end.

(** [args[0]]. *)
Definition item0 (args : list value) : result value :=
  match args with
  | x :: _ => Return x
  | [] => Raise (IndexError "tuple index out of range")
  end.

(** [context, request = args]. *)
Definition unpack2 (args : list value) : result (value * value) :=
  match args with
  | [] => Raise (ValueError "need more than 0 values to unpack")
  | [_] => Raise (ValueError "need more than 1 value to unpack")
  | [context; request] => Return (context, request)
  | _ => Raise (ValueError "too many values to unpack")
  end.

Definition dquote : string := String (ascii_of_nat 34) EmptyString.

Definition authenticated_userid_warning : string :=
  "As of BFG 0.9, the " ++ dquote
  ++ "repoze.bfg.security.authenticated_userid" ++ dquote ++ " "
  ++ "API now takes two arguments: " ++ dquote ++ "context" ++ dquote
  ++ " and " ++ dquote ++ "request" ++ dquote ++ ". "
  ++ "It is being called it with a single argument"
  ++ "(assumed to be a request).   In a future version, the "
  ++ dquote ++ "authenticated_userid API will stop accepting calls with a "
  ++ "single argument; please fix the calling code.".

Definition effective_principals_warning : string :=
  "As of BFG 0.9, the " ++ dquote
  ++ "repoze.bfg.security.effective_principals " ++ dquote ++ " "
  ++ "API now takes two arguments: " ++ dquote ++ "context" ++ dquote
  ++ " and " ++ dquote ++ "request" ++ dquote ++ ". "
  ++ "It is being called it with a single argument"
  ++ "(assumed to be a request).   In a future version, the "
  ++ dquote ++ "effective_principals API will stop accepting calls with a "
  ++ "single argument; please fix the calling code.".

(** The head both variadic functions share: the arity test and the binding
    of [context] and [request]. *)
Definition context_and_request (warning : string) (args : list value)
  : M (value * value) :=
  let largs := length args in
  if Nat.ltb 2 largs then raise (TypeError (VTuple args))
  else if Nat.eqb largs 1 then
    request <- lift (item0 args) ;;
    (warn warning 2 ;;;
     ret (VNone, request))
  else lift (unpack2 args).

Definition authenticated_userid (args : list value) : M value :=
  cr <- context_and_request authenticated_userid_warning args ;;
  let (context, request) := cr : value * value in
  policy <- queryUtility IAuthenticationPolicy ;;
  match policy with
  | None => ret VNone
  | Some p =>
      call IAuthenticationPolicy "authenticated_userid" [context; request] []
        (AuthenticationPolicy.authenticated_userid p context request)
  end.

Definition effective_principals (args : list value) : M value :=
  cr <- context_and_request effective_principals_warning args ;;
  let (context, request) := cr : value * value in
  policy <- queryUtility IAuthenticationPolicy ;;
  match policy with
  | None => ret (VList [])
  | Some p =>
      call IAuthenticationPolicy "effective_principals" [context; request] []
        (AuthenticationPolicy.effective_principals p context request)
  end.

Definition principals_allowed_by_permission (context permission : value)
  : M value :=
  policy <- queryUtility IAuthorizationPolicy ;;
  match policy with
  | None => ret (VList [Everyone])
  | Some p =>
      call IAuthorizationPolicy "principals_allowed_by_permission"
        [context; permission] []
        (AuthorizationPolicy.principals_allowed_by_permission p context
           permission)
  end.

Definition remember (context request principal : value) (kw : kwargs)
  : M value :=
  policy <- queryUtility IAuthenticationPolicy ;;
  match policy with
  | None => ret (VList [])
  | Some p =>
      call IAuthenticationPolicy "remember" [context; request; principal] kw
        (AuthenticationPolicy.remember p context request principal kw)
  end.

Definition forget (context request : value) : M value :=
  policy <- queryUtility IAuthenticationPolicy ;;
  match policy with
  | None => ret (VList [])
  | Some p =>
      call IAuthenticationPolicy "forget" [context; request] []
        (AuthenticationPolicy.forget p context request)
  end.

(** [ViewPermissionFactory]: its instances hold a permission name and,
    called, ask [has_permission] for it. *)
Module ViewPermissionFactory.
Record t : Type := Build { permission_name : value }.

Definition call (self : t) (context request : value) : M value :=
  has_permission (permission_name self) context request.
End ViewPermissionFactory.

(** ** The module: the permission of a view *)

(** The adapters registered for [IViewPermission]: what the lookup of
    [queryMultiAdapter] finds for the two objects and the name is a factory,
    called with the two objects, or nothing. *)
Definition adapter_factory : Type := value -> value -> M value.

Definition adapter_registry : Type :=
  value -> value -> string -> option adapter_factory.

(** [queryMultiAdapter((context, request), IViewPermission, name=name,
    default=default)]: the default stands for a missing factory and for a
    factory that gives [None]. *)
Definition queryMultiAdapter (adapters : adapter_registry)
    (context request : value) (name : string) (default : value) : M value :=
  match adapters context request name with
  | None => ret default
  | Some factory =>
      adapter <- factory context request ;;
      match adapter with
      | VNone => ret default
      | _ => ret adapter
      end
  end.

Definition no_permission_defined : string :=
  "Allowed: view name %r in context %r (no permission defined)".

Section ViewExecution.

Variable convert : ascii -> value -> result string.

Definition view_execution_permitted (adapters : adapter_registry)
    (context request : value) (name : string) : M value :=
  result <- queryMultiAdapter adapters context request name VNone ;;
  match result with
  | VNone =>
      text <- lift (format convert no_permission_defined
                      [VStr name; context]) ;;
      lift (PermitsResult_new Allowed text [])
  | _ => ret result
  end.

End ViewExecution.

Definition result_map {A B : Type} (f : A -> B) (r : result A) : result B :=
  result_bind r (fun a => Return (f a)).

(** ** Sample configurations *)

Definition make_registry (authn : option AuthenticationPolicy.t)
    (authz : option AuthorizationPolicy.t) : registry :=
  fun i =>
    match i return option (utility i) with
    | IAuthenticationPolicy => authn
    | IAuthorizationPolicy => authz
    end.

(** An authentication policy that knows one user and an authorization policy
    that denies everything and cannot enumerate principals. *)
Definition fred_authn : AuthenticationPolicy.t :=
  AuthenticationPolicy.Build
    (fun _ _ => Return (VList [Everyone; Authenticated; VStr "fred"]))
    (fun _ _ => Return (VStr "fred"))
    (fun _ _ _ _ => Return (VList []))
    (fun _ _ => Return (VList [])).

Definition closed_authz : AuthorizationPolicy.t :=
  AuthorizationPolicy.Build
    (fun _ _ _ => PermitsResult_new Denied "closed" [])
    (fun _ _ => Raise NotImplementedError).

(** An authorization policy whose [permits] answers [None]. *)
Definition silent_authz : AuthorizationPolicy.t :=
  AuthorizationPolicy.Build
    (fun _ _ _ => Return VNone)
    (fun _ _ => Return (VList [])).

(** An authentication policy whose methods all fail. *)
Definition failing_authn : AuthenticationPolicy.t :=
  AuthenticationPolicy.Build
    (fun _ _ => Raise (OtherError "backend down"))
    (fun _ _ => Raise (OtherError "backend down"))
    (fun _ _ _ _ => Raise (OtherError "backend down"))
    (fun _ _ => Raise (OtherError "backend down")).

(** The view named "edit" asks for the permission "edit"; no other view is
    protected. *)
Definition edit_view_only : adapter_registry :=
  fun _ _ name =>
    if String.eqb name "edit"
    then Some (ViewPermissionFactory.call
                 (ViewPermissionFactory.Build (VStr "edit")))
    else None.

(** A renderer for strings and for instances of foreign classes: [%r] puts
    a string between quotes, any other conversion gives it as it is. *)
Definition render_strings (c : ascii) (v : value) : result string :=
  match v with
  | VStr s => if Ascii.eqb c "r"%char then Return ("'" ++ s ++ "'")
              else Return s
  | VObject name _ => Return ("<" ++ name ++ " object>")
  | _ => Raise (OtherError "rendering left open")
  end.

Definition a_context : value := VObject "Model" 0.
Definition a_request : value := VObject "Request" 1.

(** A renderer for the conversions [%s] and [%r] of strings only. *)
Definition text_only (c : ascii) (v : value) : result string :=
  match v with
  | VStr s => Return s
  | _ => Raise (OtherError "rendering left open")
  end.

(** ** Properties of the runtime fragment *)

Lemma format_plain (convert : ascii -> value -> result string) (s : string) :
  plain s = true -> format convert s [] = Return s.
Proof.
  induction s as [|c rest IH]; simpl; intros Hplain.
  - reflexivity.
  - apply andb_true_iff in Hplain as [Hc Hrest].
    apply negb_true_iff in Hc. rewrite Hc.
    rewrite (IH Hrest). reflexivity.
Qed.

Lemma bind_run {A B : Type} (m : M A) (k : A -> M B) (reg : registry)
    (t : list event) (a : A) :
  m reg = (t, Return a) ->
  bind m k reg = ((t ++ trace (k a reg))%list, outcome (k a reg)).
Proof.
  intros Hm. unfold bind, trace, outcome. rewrite Hm.
  destruct (k a reg); reflexivity.
Qed.

Lemma bind_raise {A B : Type} (m : M A) (k : A -> M B) (reg : registry)
    (t : list event) (e : exn) :
  m reg = (t, Raise e) -> bind m k reg = (t, Raise e).
Proof.
  intros Hm. unfold bind. rewrite Hm. reflexivity.
Qed.

Lemma isinstance_AllPermissionsList (v : value) :
  isinstance v AllPermissionsList = true <-> class_of v = AllPermissionsList.
Proof.
  unfold isinstance. destruct (class_of v); cbn; split;
    solve [reflexivity | discriminate].
Qed.

(** ** Properties of the facade shared by several statements *)

Lemma has_permission_no_authn (reg : registry)
    (permission context request : value) :
  reg IAuthenticationPolicy = None ->
  has_permission permission context request reg
  = ([Lookup IAuthenticationPolicy],
     Return (VPermitsResult Allowed 1 "No authentication policy in use." [])).
Proof.
  intros Hnone. unfold has_permission.
  rewrite (bind_run _ _ reg [Lookup IAuthenticationPolicy] None).
  - reflexivity.
  - unfold queryUtility. rewrite Hnone. reflexivity.
Qed.

Lemma context_and_request_two (warning : string) (context request : value)
    (reg : registry) :
  context_and_request warning [context; request] reg
  = ([], Return (context, request)).
Proof. reflexivity. Qed.

Lemma context_and_request_many (warning : string) (args : list value)
    (reg : registry) :
  2 < length args ->
  context_and_request warning args reg = ([], Raise (TypeError (VTuple args))).
Proof.
  intros Hlen. unfold context_and_request.
  apply Nat.ltb_lt in Hlen. rewrite Hlen. reflexivity.
Qed.

Lemma authenticated_userid_too_many (args : list value) (reg : registry) :
  2 < length args ->
  authenticated_userid args reg = ([], Raise (TypeError (VTuple args))).
Proof.
  intros Hlen. unfold authenticated_userid.
  apply bind_raise, context_and_request_many, Hlen.
Qed.

Lemma effective_principals_too_many (args : list value) (reg : registry) :
  2 < length args ->
  effective_principals args reg = ([], Raise (TypeError (VTuple args))).
Proof.
  intros Hlen. unfold effective_principals.
  apply bind_raise, context_and_request_many, Hlen.
Qed.

(** The deprecated call with the request alone still works and warns. *)
Lemma authenticated_userid_one_argument (request : value) (reg : registry) :
  reg IAuthenticationPolicy = None ->
  authenticated_userid [request] reg
  = ([Warn authenticated_userid_warning 2; Lookup IAuthenticationPolicy],
     Return VNone).
Proof.
  intros Hnone. unfold authenticated_userid.
  rewrite (bind_run _ _ reg [Warn authenticated_userid_warning 2]
             (VNone, request)); [|reflexivity].
  cbn -[authenticated_userid_warning]. rewrite Hnone. reflexivity.
Qed.

(** The run of [has_permission], by cases on the registry and on what the
    authentication policy answers. *)
Lemma has_permission_run (reg : registry)
    (permission context request : value) :
  has_permission permission context request reg
  = match reg IAuthenticationPolicy with
    | None =>
        ([Lookup IAuthenticationPolicy],
         Return
           (VPermitsResult Allowed 1 "No authentication policy in use." []))
    | Some authn =>
        match reg IAuthorizationPolicy with
        | None =>
            ([Lookup IAuthenticationPolicy; Lookup IAuthorizationPolicy],
             Raise (ValueError
               "Authentication policy registered without authorization policy"))
        | Some authz =>
            match AuthenticationPolicy.effective_principals authn context
                    request with
            | Return principals =>
                ([Lookup IAuthenticationPolicy; Lookup IAuthorizationPolicy;
                  Call IAuthenticationPolicy "effective_principals"
                    [context; request] [];
                  Call IAuthorizationPolicy "permits"
                    [context; principals; permission] []],
                 AuthorizationPolicy.permits authz context principals
                   permission)
            | Raise e =>
                ([Lookup IAuthenticationPolicy; Lookup IAuthorizationPolicy;
                  Call IAuthenticationPolicy "effective_principals"
                    [context; request] []],
                 Raise e)
            end
        end
    end.
Proof.
  unfold has_permission, bind, queryUtility, call, lift, raise. cbn.
  destruct (reg IAuthenticationPolicy) as [authn|]; [|reflexivity].
  destruct (reg IAuthorizationPolicy) as [authz|]; [|reflexivity].
  cbn.
  destruct (AuthenticationPolicy.effective_principals authn context request);
    reflexivity.
Qed.

(** Formatting with no argument never lengthens the string, and shortens it
    when a percent sign occurs. *)
Lemma format_nil_length (convert : ascii -> value -> result string)
    (n : nat) :
  forall s r : string,
    String.length s <= n ->
    format convert s [] = Return r ->
    String.length r <= String.length s
    /\ (plain s = false -> String.length r < String.length s).
Proof.
  induction n as [|n IH]; intros s r Hlen Hfmt.
  - destruct s; simpl in Hlen; [|lia].
    simpl in Hfmt. injection Hfmt as <-. simpl. split; [lia|discriminate].
  - destruct s as [|c rest]; simpl in Hfmt.
    + injection Hfmt as <-. simpl. split; [lia|discriminate].
    + simpl in Hlen. destruct (Ascii.eqb c "%"%char) eqn:Hc.
      * destruct rest as [|d rest']; [discriminate|].
        destruct (Ascii.eqb d "%"%char); [|discriminate].
        unfold emit in Hfmt.
        destruct (format convert rest' []) as [r'|e] eqn:Hrest;
          [|discriminate].
        simpl in Hfmt. injection Hfmt as <-.
        simpl in Hlen.
        destruct (IH rest' r' ltac:(lia) Hrest) as [Hle _].
        simpl. split; intros; lia.
      * unfold emit in Hfmt.
        destruct (format convert rest []) as [r'|e] eqn:Hrest;
          [|discriminate].
        simpl in Hfmt. injection Hfmt as <-.
        destruct (IH rest r' ltac:(lia) Hrest) as [Hle Hlt].
        simpl. rewrite Hc. simpl. split; [lia|].
        intros Hplain. specialize (Hlt Hplain). lia.
Qed.

(** The two variadic functions, by cases on the number of arguments. *)
Lemma authenticated_userid_run (args : list value) (reg : registry) :
  authenticated_userid args reg
  = match args with
    | [] => ([], Raise (ValueError "need more than 0 values to unpack"))
    | [request] =>
        match reg IAuthenticationPolicy with
        | None =>
            ([Warn authenticated_userid_warning 2;
              Lookup IAuthenticationPolicy], Return VNone)
        | Some p =>
            ([Warn authenticated_userid_warning 2;
              Lookup IAuthenticationPolicy;
              Call IAuthenticationPolicy "authenticated_userid"
                [VNone; request] []],
             AuthenticationPolicy.authenticated_userid p VNone request)
        end
    | [context; request] =>
        match reg IAuthenticationPolicy with
        | None => ([Lookup IAuthenticationPolicy], Return VNone)
        | Some p =>
            ([Lookup IAuthenticationPolicy;
              Call IAuthenticationPolicy "authenticated_userid"
                [context; request] []],
             AuthenticationPolicy.authenticated_userid p context request)
        end
    | _ => ([], Raise (TypeError (VTuple args)))
    end.
Proof.
  destruct args as [|a [|b [|c rest]]]; try reflexivity;
    unfold authenticated_userid, bind, queryUtility, call;
    cbn -[authenticated_userid_warning];
    destruct (reg IAuthenticationPolicy); reflexivity.
Qed.

Lemma effective_principals_run (args : list value) (reg : registry) :
  effective_principals args reg
  = match args with
    | [] => ([], Raise (ValueError "need more than 0 values to unpack"))
    | [request] =>
        match reg IAuthenticationPolicy with
        | None =>
            ([Warn effective_principals_warning 2;
              Lookup IAuthenticationPolicy], Return (VList []))
        | Some p =>
            ([Warn effective_principals_warning 2;
              Lookup IAuthenticationPolicy;
              Call IAuthenticationPolicy "effective_principals"
                [VNone; request] []],
             AuthenticationPolicy.effective_principals p VNone request)
        end
    | [context; request] =>
        match reg IAuthenticationPolicy with
        | None => ([Lookup IAuthenticationPolicy], Return (VList []))
        | Some p =>
            ([Lookup IAuthenticationPolicy;
              Call IAuthenticationPolicy "effective_principals"
                [context; request] []],
             AuthenticationPolicy.effective_principals p context request)
        end
    | _ => ([], Raise (TypeError (VTuple args)))
    end.
Proof.
  destruct args as [|a [|b [|c rest]]]; try reflexivity;
    unfold effective_principals, bind, queryUtility, call;
    cbn -[effective_principals_warning];
    destruct (reg IAuthenticationPolicy); reflexivity.
Qed.

Lemma append_empty_r (s : string) : s ++ EmptyString = s.
Proof.
  induction s as [|c rest IH]; simpl; [reflexivity | now rewrite IH].
Qed.

(** The text [view_execution_permitted] renders when both conversions
    succeed. *)
Lemma format_no_permission_defined
    (convert : ascii -> value -> result string) (name : string)
    (context : value) (rname rcontext : string) :
  convert "r"%char (VStr name) = Return rname ->
  convert "r"%char context = Return rcontext ->
  format convert no_permission_defined [VStr name; context]
  = Return ("Allowed: view name " ++ rname ++ " in context " ++ rcontext
            ++ " (no permission defined)").
Proof.
  intros Hname Hcontext. unfold no_permission_defined. cbn.
  rewrite Hname. cbn. rewrite Hcontext. reflexivity.
Qed.

(** ** The statements about the module *)

(** C1.  With no authentication policy registered, [has_permission] returns
    an instance of [Allowed], which is true and whose message is "No
    authentication policy in use."; the only thing the call does on the way
    is to look the authentication policy up, so no authorization policy is
    consulted. *)
Theorem has_permission_without_authentication_policy
    (convert : ascii -> value -> result string) (reg : registry)
    (permission context request : value) :
  reg IAuthenticationPolicy = None ->
  exists inst : value,
    has_permission permission context request reg
    = ([Lookup IAuthenticationPolicy], Return inst)
    /\ class_of inst = Allowed
    /\ truth inst = true
    /\ msg convert inst = Return "No authentication policy in use.".
Proof.
  intros Hnone. eexists. split; [|split; [|split]].
  - apply has_permission_no_authn, Hnone.
  - reflexivity.
  - reflexivity.
  - cbn [msg]. apply format_plain. reflexivity.
Qed.

Lemma has_permission_without_authentication_policy_witness :
  make_registry None (Some closed_authz) IAuthenticationPolicy = None
  /\ exists inst : value,
       has_permission (VStr "view") a_context a_request
         (make_registry None (Some closed_authz))
       = ([Lookup IAuthenticationPolicy], Return inst)
       /\ class_of inst = Allowed
       /\ truth inst = true
       /\ msg text_only inst = Return "No authentication policy in use.".
Proof.
  split.
  - reflexivity.
  - apply (has_permission_without_authentication_policy text_only
             (make_registry None (Some closed_authz))).
    reflexivity.
Defined.

(** C2.  With an authentication policy registered and no authorization
    policy, [has_permission] raises [ValueError] after the two lookups; it
    returns no result. *)
Theorem has_permission_without_authorization_policy (reg : registry)
    (permission context request : value) (authn : AuthenticationPolicy.t) :
  reg IAuthenticationPolicy = Some authn ->
  reg IAuthorizationPolicy = None ->
  has_permission permission context request reg
  = ([Lookup IAuthenticationPolicy; Lookup IAuthorizationPolicy],
     Raise (ValueError
       "Authentication policy registered without authorization policy")).
Proof.
  intros Hauthn Hauthz. unfold has_permission.
  rewrite (bind_run _ _ reg [Lookup IAuthenticationPolicy] (Some authn)).
  - rewrite (bind_run _ _ reg [Lookup IAuthorizationPolicy] None).
    + reflexivity.
    + unfold queryUtility. rewrite Hauthz. reflexivity.
  - unfold queryUtility. rewrite Hauthn. reflexivity.
Qed.

Lemma has_permission_without_authorization_policy_witness :
  make_registry (Some fred_authn) None IAuthenticationPolicy
  = Some fred_authn
  /\ make_registry (Some fred_authn) None IAuthorizationPolicy = None
  /\ has_permission (VStr "view") a_context a_request
       (make_registry (Some fred_authn) None)
     = ([Lookup IAuthenticationPolicy; Lookup IAuthorizationPolicy],
        Raise (ValueError
          "Authentication policy registered without authorization policy")).
Proof.
  split; [reflexivity|]. split; [reflexivity|].
  apply (has_permission_without_authorization_policy
           (make_registry (Some fred_authn) None) (VStr "view") a_context
           a_request fred_authn); reflexivity.
Defined.

(** C3, as stated, fails: with an authorization policy registered and no
    authentication policy, [has_permission] raises nothing and returns an
    ordinary [Allowed]. *)
Lemma has_permission_authorization_policy_alone_returns :
  make_registry None (Some closed_authz) IAuthorizationPolicy
  = Some closed_authz
  /\ make_registry None (Some closed_authz) IAuthenticationPolicy = None
  /\ outcome (has_permission (VStr "view") a_context a_request
                (make_registry None (Some closed_authz)))
     = Return (VPermitsResult Allowed 1 "No authentication policy in use." [])
  /\ ~ (exists e : exn,
          outcome (has_permission (VStr "view") a_context a_request
                     (make_registry None (Some closed_authz)))
          = Raise e).
Proof.
  split; [reflexivity|]. split; [reflexivity|]. split; [reflexivity|].
  intros [e He]. discriminate He.
Qed.

(** C3, amended.  With an authorization policy registered and no
    authentication policy, [has_permission] does not raise: it returns the
    [Allowed] instance saying that no authentication policy is in use, and
    it never looks the authorization policy up. *)
Theorem has_permission_authorization_policy_alone (reg : registry)
    (permission context request : value) (authz : AuthorizationPolicy.t) :
  reg IAuthorizationPolicy = Some authz ->
  reg IAuthenticationPolicy = None ->
  has_permission permission context request reg
  = ([Lookup IAuthenticationPolicy],
     Return (VPermitsResult Allowed 1 "No authentication policy in use." []))
  /\ raises (outcome (has_permission permission context request reg)) = false
  /\ ~ In (Lookup IAuthorizationPolicy)
         (trace (has_permission permission context request reg)).
Proof.
  intros _ Hnone.
  rewrite (has_permission_no_authn reg permission context request Hnone).
  split; [reflexivity|]. split; [reflexivity|].
  cbn. intros [Heq | []]. discriminate Heq.
Qed.

Lemma has_permission_authorization_policy_alone_witness :
  make_registry None (Some closed_authz) IAuthorizationPolicy
  = Some closed_authz
  /\ make_registry None (Some closed_authz) IAuthenticationPolicy = None
  /\ has_permission (VStr "edit") a_context a_request
       (make_registry None (Some closed_authz))
     = ([Lookup IAuthenticationPolicy],
        Return (VPermitsResult Allowed 1 "No authentication policy in use."
                  [])).
Proof.
  split; [reflexivity|]. split; [reflexivity|].
  apply (has_permission_authorization_policy_alone
           (make_registry None (Some closed_authz)) (VStr "edit") a_context
           a_request closed_authz); reflexivity.
Defined.

(** C4.  Every instance of [Allowed] and of [ACLAllowed] is true and every
    instance of [Denied] and of [ACLDenied] is false, whatever it was
    constructed with; for any of the classes, constructing with another
    format string and other arguments gives the same truth value. *)
Theorem truth_of_permits_results :
  (forall (s : string) (args : list value),
      exists inst : value,
        PermitsResult_new Allowed s args = Return inst
        /\ class_of inst = Allowed /\ truth inst = true)
  /\ (forall (s : string) (args : list value),
        exists inst : value,
          PermitsResult_new Denied s args = Return inst
          /\ class_of inst = Denied /\ truth inst = false)
  /\ (forall ace acl permission principals context : value,
        exists inst : value,
          ACLPermitsResult_new ACLAllowed ace acl permission principals
            context = Return inst
          /\ class_of inst = ACLAllowed /\ truth inst = true)
  /\ (forall ace acl permission principals context : value,
        exists inst : value,
          ACLPermitsResult_new ACLDenied ace acl permission principals
            context = Return inst
          /\ class_of inst = ACLDenied /\ truth inst = false)
  /\ (forall (cls : class) (s s' : string) (args args' : list value),
        result_map truth (PermitsResult_new cls s args)
        = result_map truth (PermitsResult_new cls s' args'))
  /\ (forall (cls : class)
             (ace acl permission principals context : value)
             (ace' acl' permission' principals' context' : value),
        result_map truth
          (ACLPermitsResult_new cls ace acl permission principals context)
        = result_map truth
            (ACLPermitsResult_new cls ace' acl' permission' principals'
               context')).
Proof.
  repeat split.
  - intros s args. eexists. repeat split.
  - intros s args. eexists. repeat split.
  - intros ace acl permission principals context. eexists. repeat split.
  - intros ace acl permission principals context. eexists. repeat split.
  - intros cls s s' args args'. unfold PermitsResult_new.
    destruct (boolval cls); reflexivity.
  - intros cls ace acl permission principals context
      ace' acl' permission' principals' context'.
    unfold ACLPermitsResult_new. destruct (boolval cls); reflexivity.
Qed.

(** C5.  For every string [s], the empty one included, [s in
    ALL_PERMISSIONS] is true. *)
Theorem every_string_in_ALL_PERMISSIONS (s : string) :
  in_ALL_PERMISSIONS (VStr s) = true
  /\ in_ALL_PERMISSIONS (VStr EmptyString) = true.
Proof. split; reflexivity. Qed.

(** C6, as stated, fails: [ALL_PERMISSIONS == "view"] is false. *)
Lemma ALL_PERMISSIONS_differs_from_view :
  ALL_PERMISSIONS_equals (VStr "view") = VBool false
  /\ truth (ALL_PERMISSIONS_equals (VStr "view")) = false.
Proof. split; reflexivity. Qed.

(** C6, amended.  [ALL_PERMISSIONS] compares equal to no permission string:
    for every string [p] the test [ALL_PERMISSIONS == p] is false; the test
    is true exactly of the instances of [AllPermissionsList], the marker
    itself among them. *)
Theorem ALL_PERMISSIONS_equals_only_its_class :
  (forall p : string, ALL_PERMISSIONS_equals (VStr p) = VBool false)
  /\ (forall v : value,
        ALL_PERMISSIONS_equals v = VBool true
        <-> class_of v = AllPermissionsList)
  /\ ALL_PERMISSIONS_equals ALL_PERMISSIONS = VBool true.
Proof.
  split; [|split].
  - intros p. reflexivity.
  - intros v. unfold ALL_PERMISSIONS_equals, AllPermissionsList_eq.
    cbn [class_of ALL_PERMISSIONS].
    rewrite <- isinstance_AllPermissionsList.
    split; [intros Heq; injection Heq; auto | intros ->; reflexivity].
  - reflexivity.
Qed.

(** C7.  With no authentication policy registered, [authenticated_userid
    (context, request)] returns [None], [effective_principals(context,
    request)] returns an empty list, and [remember] and [forget] return an
    empty list of headers; each only looks the policy up. *)
Theorem authentication_facade_without_policy (reg : registry)
    (context request principal : value) (kw : kwargs) :
  reg IAuthenticationPolicy = None ->
  authenticated_userid [context; request] reg
  = ([Lookup IAuthenticationPolicy], Return VNone)
  /\ effective_principals [context; request] reg
     = ([Lookup IAuthenticationPolicy], Return (VList []))
  /\ remember context request principal kw reg
     = ([Lookup IAuthenticationPolicy], Return (VList []))
  /\ forget context request reg
     = ([Lookup IAuthenticationPolicy], Return (VList [])).
Proof.
  intros Hnone.
  assert (Hq : queryUtility IAuthenticationPolicy reg
               = ([Lookup IAuthenticationPolicy], Return None)).
  { unfold queryUtility. rewrite Hnone. reflexivity. }
  repeat split.
  - unfold authenticated_userid.
    rewrite (bind_run _ _ reg [] (context, request)
               (context_and_request_two _ context request reg)).
    rewrite (bind_run _ _ reg _ None Hq). reflexivity.
  - unfold effective_principals.
    rewrite (bind_run _ _ reg [] (context, request)
               (context_and_request_two _ context request reg)).
    rewrite (bind_run _ _ reg _ None Hq). reflexivity.
  - unfold remember. rewrite (bind_run _ _ reg _ None Hq). reflexivity.
  - unfold forget. rewrite (bind_run _ _ reg _ None Hq). reflexivity.
Qed.

Lemma authentication_facade_without_policy_witness :
  make_registry None None IAuthenticationPolicy = None
  /\ authenticated_userid [a_context; a_request] (make_registry None None)
     = ([Lookup IAuthenticationPolicy], Return VNone)
  /\ effective_principals [a_context; a_request] (make_registry None None)
     = ([Lookup IAuthenticationPolicy], Return (VList []))
  /\ remember a_context a_request (VStr "chrism")
       [("password", VStr "123")] (make_registry None None)
     = ([Lookup IAuthenticationPolicy], Return (VList []))
  /\ forget a_context a_request (make_registry None None)
     = ([Lookup IAuthenticationPolicy], Return (VList [])).
Proof.
  split; [reflexivity|].
  apply (authentication_facade_without_policy (make_registry None None)
           a_context a_request (VStr "chrism") [("password", VStr "123")]).
  reflexivity.
Defined.

(** C8, at the input where it fails.  Called with no argument at all,
    [authenticated_userid] and [effective_principals] raise [ValueError],
    from the unpacking of the empty tuple, and not [TypeError]; called with
    three arguments or more they raise [TypeError]. *)
Theorem variadic_facade_without_arguments (reg : registry) :
  authenticated_userid [] reg
  = ([], Raise (ValueError "need more than 0 values to unpack"))
  /\ effective_principals [] reg
     = ([], Raise (ValueError "need more than 0 values to unpack"))
  /\ (forall a b c rest : value,
        authenticated_userid [a; b; c; rest] reg
        = ([], Raise (TypeError (VTuple [a; b; c; rest])))
        /\ authenticated_userid [a; b; c] reg
           = ([], Raise (TypeError (VTuple [a; b; c])))
        /\ effective_principals [a; b; c] reg
           = ([], Raise (TypeError (VTuple [a; b; c])))).
Proof.
  repeat split.
Qed.

(** C9.  With no authorization policy registered,
    [principals_allowed_by_permission] returns the list whose only element
    is [Everyone]. *)
Theorem principals_allowed_without_authorization_policy (reg : registry)
    (context permission : value) :
  reg IAuthorizationPolicy = None ->
  principals_allowed_by_permission context permission reg
  = ([Lookup IAuthorizationPolicy], Return (VList [Everyone]))
  /\ Everyone = VStr "system.Everyone".
Proof.
  intros Hnone. split; [|reflexivity].
  unfold principals_allowed_by_permission.
  rewrite (bind_run _ _ reg [Lookup IAuthorizationPolicy] None).
  - reflexivity.
  - unfold queryUtility. rewrite Hnone. reflexivity.
Qed.

Lemma principals_allowed_without_authorization_policy_witness :
  make_registry (Some fred_authn) None IAuthorizationPolicy = None
  /\ principals_allowed_by_permission a_context (VStr "view")
       (make_registry (Some fred_authn) None)
     = ([Lookup IAuthorizationPolicy], Return (VList [Everyone])).
Proof.
  split; [reflexivity|].
  apply (principals_allowed_without_authorization_policy
           (make_registry (Some fred_authn) None) a_context (VStr "view")).
  reflexivity.
Defined.

(** C10.  [ALL_PERMISSIONS] cannot be iterated: its [__iter__] returns an
    empty tuple, which is not an iterator, so [iter(ALL_PERMISSIONS)] and
    every [for] loop over the marker raise [TypeError] before the body of
    the loop runs; the membership test and the equality test on the marker
    do give a result. *)
Theorem ALL_PERMISSIONS_is_not_iterable :
  AllPermissionsList_iter ALL_PERMISSIONS = VTuple []
  /\ is_iterator (AllPermissionsList_iter ALL_PERMISSIONS) = false
  /\ iter ALL_PERMISSIONS
     = Raise (TypeError (VStr "iter() returned non-iterator of type 'tuple'"))
  /\ (forall (S : Type) (body : value -> S -> result S) (st : S),
        for_in ALL_PERMISSIONS body st
        = Raise (TypeError
                   (VStr "iter() returned non-iterator of type 'tuple'")))
  /\ (forall x : value, in_ALL_PERMISSIONS x = true)
  /\ (forall p : value, exists b : bool, ALL_PERMISSIONS_equals p = VBool b).
Proof.
  repeat split.
  intros p. eexists. reflexivity.
Qed.

(** ** Further properties of the module *)

(** X1.  With both policies registered and the authentication policy
    answering with a set of principals, [has_permission] asks the
    authorization policy once, with the context, those principals and the
    permission, and its outcome is the outcome of [permits], unchanged. *)
Theorem has_permission_delegates (reg : registry)
    (permission context request principals : value)
    (authn : AuthenticationPolicy.t) (authz : AuthorizationPolicy.t) :
  reg IAuthenticationPolicy = Some authn ->
  reg IAuthorizationPolicy = Some authz ->
  AuthenticationPolicy.effective_principals authn context request
  = Return principals ->
  has_permission permission context request reg
  = ([Lookup IAuthenticationPolicy; Lookup IAuthorizationPolicy;
      Call IAuthenticationPolicy "effective_principals" [context; request] [];
      Call IAuthorizationPolicy "permits" [context; principals; permission]
        []],
     AuthorizationPolicy.permits authz context principals permission).
Proof.
  intros Hauthn Hauthz Hprincipals. rewrite has_permission_run.
  rewrite Hauthn, Hauthz, Hprincipals. reflexivity.
Qed.

Lemma has_permission_delegates_witness :
  has_permission (VStr "view") a_context a_request
    (make_registry (Some fred_authn) (Some closed_authz))
  = ([Lookup IAuthenticationPolicy; Lookup IAuthorizationPolicy;
      Call IAuthenticationPolicy "effective_principals"
        [a_context; a_request] [];
      Call IAuthorizationPolicy "permits"
        [a_context; VList [Everyone; Authenticated; VStr "fred"];
         VStr "view"] []],
     Return (VPermitsResult Denied 0 "closed" [])).
Proof.
  apply (has_permission_delegates
           (make_registry (Some fred_authn) (Some closed_authz))
           (VStr "view") a_context a_request
           (VList [Everyone; Authenticated; VStr "fred"])
           fred_authn closed_authz); reflexivity.
Defined.

(** X2.  When the authentication policy raises while computing the
    principals, [has_permission] raises the same exception and the
    authorization policy is never called. *)
Theorem has_permission_principals_failure (reg : registry)
    (permission context request : value) (e : exn)
    (authn : AuthenticationPolicy.t) (authz : AuthorizationPolicy.t) :
  reg IAuthenticationPolicy = Some authn ->
  reg IAuthorizationPolicy = Some authz ->
  AuthenticationPolicy.effective_principals authn context request = Raise e ->
  outcome (has_permission permission context request reg) = Raise e
  /\ forall method args kw,
       ~ In (Call IAuthorizationPolicy method args kw)
           (trace (has_permission permission context request reg)).
Proof.
  intros Hauthn Hauthz Hraise. rewrite has_permission_run.
  rewrite Hauthn, Hauthz, Hraise. split; [reflexivity|].
  intros method args kw. cbn.
  intros [H | [H | [H | []]]]; discriminate H.
Qed.

Lemma has_permission_principals_failure_witness :
  outcome (has_permission (VStr "view") a_context a_request
             (make_registry (Some failing_authn) (Some closed_authz)))
  = Raise (OtherError "backend down").
Proof.
  apply (has_permission_principals_failure
           (make_registry (Some failing_authn) (Some closed_authz))
           (VStr "view") a_context a_request (OtherError "backend down")
           failing_authn closed_authz); reflexivity.
Defined.

(** X3.  [has_permission] stops after the two lookups with the
    configuration [ValueError] exactly when an authentication policy is
    registered and no authorization policy is. *)
Theorem has_permission_configuration_error_iff (reg : registry)
    (permission context request : value) :
  has_permission permission context request reg
  = ([Lookup IAuthenticationPolicy; Lookup IAuthorizationPolicy],
     Raise (ValueError
       "Authentication policy registered without authorization policy"))
  <-> (reg IAuthenticationPolicy <> None /\ reg IAuthorizationPolicy = None).
Proof.
  rewrite has_permission_run.
  destruct (reg IAuthenticationPolicy) as [authn|].
  - destruct (reg IAuthorizationPolicy) as [authz|].
    + split.
      * destruct (AuthenticationPolicy.effective_principals authn context
                    request); intros H; discriminate H.
      * intros [_ H]. discriminate H.
    + split; [intros _; split; [discriminate|reflexivity] | reflexivity].
  - split; [intros H; discriminate H | intros [H _]; contradiction].
Qed.

(** X4.  Whenever [has_permission] calls the authorization policy, the call
    is [permits] on the context, the permission asked for and the very
    principals the registered authentication policy gave for the context and
    the request. *)
Theorem has_permission_calls_permits_with_effective_principals
    (reg : registry) (permission context request : value)
    (method : string) (args : list value) (kw : kwargs) :
  In (Call IAuthorizationPolicy method args kw)
     (trace (has_permission permission context request reg)) ->
  exists (authn : AuthenticationPolicy.t) (principals : value),
    reg IAuthenticationPolicy = Some authn
    /\ AuthenticationPolicy.effective_principals authn context request
       = Return principals
    /\ method = "permits"
    /\ args = [context; principals; permission]
    /\ kw = [].
Proof.
  rewrite has_permission_run.
  destruct (reg IAuthenticationPolicy) as [authn|].
  - destruct (reg IAuthorizationPolicy) as [authz|].
    + destruct (AuthenticationPolicy.effective_principals authn context
                  request) as [principals|e] eqn:Hprincipals; cbn.
      * intros [H | [H | [H | [H | []]]]]; try discriminate H.
        injection H as <- <- <-.
        exists authn, principals. repeat split. exact Hprincipals.
      * intros [H | [H | [H | []]]]; discriminate H.
    + cbn. intros [H | [H | []]]; discriminate H.
  - cbn. intros [H | []]; discriminate H.
Qed.

Lemma has_permission_calls_permits_with_effective_principals_witness :
  exists (authn : AuthenticationPolicy.t) (principals : value),
    make_registry (Some fred_authn) (Some closed_authz) IAuthenticationPolicy
    = Some authn
    /\ AuthenticationPolicy.effective_principals authn a_context a_request
       = Return principals
    /\ "permits" = "permits"
    /\ [a_context; VList [Everyone; Authenticated; VStr "fred"]; VStr "view"]
       = [a_context; principals; VStr "view"]
    /\ @nil (string * value) = [].
Proof.
  apply (has_permission_calls_permits_with_effective_principals
           (make_registry (Some fred_authn) (Some closed_authz))
           (VStr "view") a_context a_request).
  vm_compute. right. right. right. left. reflexivity.
Defined.

(** X5.  The deprecated call with the request alone behaves as the call
    with [None] for the context, after one deprecation warning: same
    outcome, same events behind the warning. *)
Theorem single_argument_call_is_call_without_context (request : value)
    (reg : registry) :
  authenticated_userid [request] reg
  = (Warn authenticated_userid_warning 2
       :: trace (authenticated_userid [VNone; request] reg),
     outcome (authenticated_userid [VNone; request] reg))
  /\ effective_principals [request] reg
     = (Warn effective_principals_warning 2
          :: trace (effective_principals [VNone; request] reg),
        outcome (effective_principals [VNone; request] reg)).
Proof.
  rewrite !authenticated_userid_run, !effective_principals_run.
  destruct (reg IAuthenticationPolicy); split; reflexivity.
Qed.

(** X6.  [authenticated_userid] and [effective_principals] reject the call
    with [TypeError], carrying the arguments and before any lookup, exactly
    when more than two arguments are given. *)
Theorem variadic_facade_type_error_iff (args : list value) (reg : registry) :
  (authenticated_userid args reg = ([], Raise (TypeError (VTuple args)))
   <-> 2 < length args)
  /\ (effective_principals args reg = ([], Raise (TypeError (VTuple args)))
      <-> 2 < length args).
Proof.
  rewrite authenticated_userid_run, effective_principals_run.
  destruct args as [|a [|b [|c rest]]]; cbn [length].
  - split; split; try lia; intros H; discriminate H.
  - destruct (reg IAuthenticationPolicy);
      split; split; try lia; intros H; discriminate H.
  - destruct (reg IAuthenticationPolicy);
      split; split; try lia; intros H; discriminate H.
  - split; split; try lia; reflexivity.
Qed.

(** X7.  A deprecation warning is issued exactly by the calls with a single
    argument, and then it is the first thing the call does. *)
Theorem variadic_facade_warns_iff_single_argument (args : list value)
    (reg : registry) :
  ((exists message level,
       In (Warn message level) (trace (authenticated_userid args reg)))
   <-> length args = 1)
  /\ ((exists message level,
          In (Warn message level) (trace (effective_principals args reg)))
      <-> length args = 1)
  /\ (length args = 1 ->
      hd_error (trace (authenticated_userid args reg))
      = Some (Warn authenticated_userid_warning 2)
      /\ hd_error (trace (effective_principals args reg))
         = Some (Warn effective_principals_warning 2)).
Proof.
  rewrite authenticated_userid_run, effective_principals_run.
  destruct args as [|a [|b [|c rest]]]; cbn [length].
  - repeat split; try discriminate; intros (m & l & []).
  - destruct (reg IAuthenticationPolicy); repeat split;
      intros _; do 2 eexists; left; reflexivity.
  - destruct (reg IAuthenticationPolicy); repeat split; try discriminate;
      cbn; intros (m & l & H);
      repeat (destruct H as [H | H]; [discriminate H|]); destruct H.
  - repeat split; try discriminate; intros (m & l & []).
Qed.

Lemma variadic_facade_warns_iff_single_argument_witness :
  hd_error (trace (authenticated_userid [a_request]
                     (make_registry (Some fred_authn) None)))
  = Some (Warn authenticated_userid_warning 2)
  /\ hd_error (trace (effective_principals [a_request]
                        (make_registry (Some fred_authn) None)))
     = Some (Warn effective_principals_warning 2).
Proof.
  apply (variadic_facade_warns_iff_single_argument [a_request]
           (make_registry (Some fred_authn) None)).
  reflexivity.
Defined.

(** X8.  With an authentication policy registered, each function of the
    authentication facade calls the method of the same name once and gives
    back what the method gives, a raised exception included; [remember]
    passes the keyword arguments on. *)
Theorem authentication_facade_delegates (reg : registry)
    (p : AuthenticationPolicy.t) (context request principal : value)
    (kw : kwargs) :
  reg IAuthenticationPolicy = Some p ->
  authenticated_userid [context; request] reg
  = ([Lookup IAuthenticationPolicy;
      Call IAuthenticationPolicy "authenticated_userid" [context; request]
        []],
     AuthenticationPolicy.authenticated_userid p context request)
  /\ effective_principals [context; request] reg
     = ([Lookup IAuthenticationPolicy;
         Call IAuthenticationPolicy "effective_principals"
           [context; request] []],
        AuthenticationPolicy.effective_principals p context request)
  /\ remember context request principal kw reg
     = ([Lookup IAuthenticationPolicy;
         Call IAuthenticationPolicy "remember" [context; request; principal]
           kw],
        AuthenticationPolicy.remember p context request principal kw)
  /\ forget context request reg
     = ([Lookup IAuthenticationPolicy;
         Call IAuthenticationPolicy "forget" [context; request] []],
        AuthenticationPolicy.forget p context request).
Proof.
  intros Hp.
  rewrite authenticated_userid_run, effective_principals_run.
  unfold remember, forget, bind, queryUtility, call. cbn.
  rewrite Hp. repeat split.
Qed.

Lemma authentication_facade_delegates_witness :
  authenticated_userid [a_context; a_request]
    (make_registry (Some fred_authn) None)
  = ([Lookup IAuthenticationPolicy;
      Call IAuthenticationPolicy "authenticated_userid"
        [a_context; a_request] []],
     Return (VStr "fred"))
  /\ effective_principals [a_context; a_request]
       (make_registry (Some fred_authn) None)
     = ([Lookup IAuthenticationPolicy;
         Call IAuthenticationPolicy "effective_principals"
           [a_context; a_request] []],
        Return (VList [Everyone; Authenticated; VStr "fred"]))
  /\ remember a_context a_request (VStr "fred") [("password", VStr "123")]
       (make_registry (Some fred_authn) None)
     = ([Lookup IAuthenticationPolicy;
         Call IAuthenticationPolicy "remember"
           [a_context; a_request; VStr "fred"] [("password", VStr "123")]],
        Return (VList []))
  /\ forget a_context a_request (make_registry (Some fred_authn) None)
     = ([Lookup IAuthenticationPolicy;
         Call IAuthenticationPolicy "forget" [a_context; a_request] []],
        Return (VList [])).
Proof.
  apply (authentication_facade_delegates
           (make_registry (Some fred_authn) None) fred_authn a_context
           a_request (VStr "fred") [("password", VStr "123")]).
  reflexivity.
Defined.

(** X9.  With an authorization policy registered,
    [principals_allowed_by_permission] gives what the method of the policy
    gives; in particular a policy that raises [NotImplementedError] makes
    the function raise it, and no list of principals is returned in its
    place. *)
Theorem principals_allowed_delegates (reg : registry)
    (p : AuthorizationPolicy.t) (context permission : value) :
  reg IAuthorizationPolicy = Some p ->
  principals_allowed_by_permission context permission reg
  = ([Lookup IAuthorizationPolicy;
      Call IAuthorizationPolicy "principals_allowed_by_permission"
        [context; permission] []],
     AuthorizationPolicy.principals_allowed_by_permission p context
       permission)
  /\ (AuthorizationPolicy.principals_allowed_by_permission p context
        permission = Raise NotImplementedError ->
      outcome (principals_allowed_by_permission context permission reg)
      = Raise NotImplementedError).
Proof.
  intros Hp.
  assert (Hrun : principals_allowed_by_permission context permission reg
                 = ([Lookup IAuthorizationPolicy;
                     Call IAuthorizationPolicy
                       "principals_allowed_by_permission"
                       [context; permission] []],
                    AuthorizationPolicy.principals_allowed_by_permission p
                      context permission)).
  { unfold principals_allowed_by_permission, bind, queryUtility, call. cbn.
    rewrite Hp. reflexivity. }
  split; [exact Hrun|].
  intros Hraise. rewrite Hrun. exact Hraise.
Qed.

Lemma principals_allowed_delegates_witness :
  outcome (principals_allowed_by_permission a_context (VStr "view")
             (make_registry None (Some closed_authz)))
  = Raise NotImplementedError.
Proof.
  apply (principals_allowed_delegates
           (make_registry None (Some closed_authz)) closed_authz a_context
           (VStr "view")); reflexivity.
Defined.

(** X10.  The message of an [Allowed] or [Denied] made from a format string
    alone, with no argument, is that string exactly when the string holds no
    percent sign; with a percent sign in it the message is another string or
    the formatting raises. *)
Theorem msg_without_arguments_is_the_string_iff_plain
    (convert : ascii -> value -> result string) (cls : class) (s : string) :
  (forall inst : value,
      PermitsResult_new cls s [] = Return inst ->
      (msg convert inst = Return s <-> plain s = true))
  /\ (forall n : Z,
         msg convert (VPermitsResult cls n s []) = Return s
         <-> plain s = true).
Proof.
  assert (Hiff : forall n : Z,
             msg convert (VPermitsResult cls n s []) = Return s
             <-> plain s = true).
  { intros n. cbn [msg]. split.
    - intros Hfmt. destruct (plain s) eqn:Hplain; [reflexivity|].
      destruct (format_nil_length convert (String.length s) s s
                  (le_n _) Hfmt) as [_ Hlt].
      specialize (Hlt Hplain). lia.
    - apply format_plain. }
  split; [|exact Hiff].
  intros inst Hnew. unfold PermitsResult_new in Hnew.
  destruct (boolval cls) as [n|e]; [|discriminate].
  cbn in Hnew. injection Hnew as <-. apply Hiff.
Qed.

(** X11.  The message of an [ACLAllowed] or [ACLDenied] is the name of its
    class followed by the permission, the ACE, the ACL, the context and the
    principals, in that order, each rendered by its conversion. *)
Theorem msg_of_acl_result (convert : ascii -> value -> result string)
    (cls : class) (n : Z) (permission ace acl principals context : value)
    (rcls rpermission race racl rcontext rprincipals : string) :
  convert "s"%char (VStr (class_name cls)) = Return rcls ->
  convert "r"%char permission = Return rpermission ->
  convert "r"%char ace = Return race ->
  convert "r"%char acl = Return racl ->
  convert "r"%char context = Return rcontext ->
  convert "r"%char principals = Return rprincipals ->
  msg convert (VACLPermitsResult cls n permission ace acl principals context)
  = Return (rcls ++ " permission " ++ rpermission ++ " via ACE " ++ race
            ++ " in ACL " ++ racl ++ " on context " ++ rcontext
            ++ " for principals " ++ rprincipals).
Proof.
  intros Hcls Hpermission Hace Hacl Hcontext Hprincipals.
  cbn -[class_name]. rewrite Hcls. cbn.
  rewrite Hpermission. cbn. rewrite Hace. cbn. rewrite Hacl. cbn.
  rewrite Hcontext. cbn. rewrite Hprincipals. cbn.
  rewrite append_empty_r. reflexivity.
Qed.

Lemma msg_of_acl_result_witness :
  msg render_strings
    (VACLPermitsResult ACLDenied 0 (VStr "view") (VStr "ace") (VStr "acl")
       (VStr "principals") (VStr "context"))
  = Return ("ACLDenied" ++ " permission " ++ "'view'" ++ " via ACE "
            ++ "'ace'" ++ " in ACL " ++ "'acl'" ++ " on context "
            ++ "'context'" ++ " for principals " ++ "'principals'").
Proof.
  apply (msg_of_acl_result render_strings ACLDenied 0 (VStr "view")
           (VStr "ace") (VStr "acl") (VStr "principals") (VStr "context"));
    reflexivity.
Defined.

(** X12.  For a view with no permission registered,
    [view_execution_permitted] returns a true [Allowed] without looking any
    policy up, whatever the registry holds.  The text rendered from the name
    and the context is stored as the format string of the result, so the
    message of the result is that text only when the text holds no percent
    sign. *)
Theorem view_without_permission_is_permitted
    (convert : ascii -> value -> result string) (adapters : adapter_registry)
    (reg : registry) (context request : value) (name : string)
    (rname rcontext : string) :
  adapters context request name = None ->
  convert "r"%char (VStr name) = Return rname ->
  convert "r"%char context = Return rcontext ->
  let text := "Allowed: view name " ++ rname ++ " in context " ++ rcontext
              ++ " (no permission defined)" in
  view_execution_permitted convert adapters context request name reg
  = ([], Return (VPermitsResult Allowed 1 text []))
  /\ truth (VPermitsResult Allowed 1 text []) = true
  /\ (msg convert (VPermitsResult Allowed 1 text []) = Return text
      <-> plain text = true).
Proof.
  intros Hnone Hname Hcontext text. split; [|split].
  - unfold view_execution_permitted, queryMultiAdapter, bind, lift, ret.
    rewrite Hnone.
    rewrite (format_no_permission_defined convert name context rname
               rcontext Hname Hcontext).
    reflexivity.
  - reflexivity.
  - cbn [msg]. split.
    + intros Hfmt. destruct (plain text) eqn:Hplain; [reflexivity|].
      destruct (format_nil_length convert (String.length text) text text
                  (le_n _) Hfmt) as [_ Hlt].
      specialize (Hlt Hplain). lia.
    + apply format_plain.
Qed.

Lemma view_without_permission_is_permitted_witness :
  view_execution_permitted render_strings edit_view_only a_context a_request
    "index" (make_registry (Some fred_authn) (Some closed_authz))
  = ([], Return (VPermitsResult Allowed 1
                   ("Allowed: view name " ++ "'index'" ++ " in context "
                    ++ "<Model object>" ++ " (no permission defined)") [])).
Proof.
  exact (proj1 (view_without_permission_is_permitted render_strings
                  edit_view_only
                  (make_registry (Some fred_authn) (Some closed_authz))
                  a_context a_request "index" "'index'" "<Model object>"
                  eq_refl eq_refl eq_refl)).
Defined.

(** X13.  For a view whose registered factory gives something other than
    [None], [view_execution_permitted] does what the factory does and
    returns its result unchanged, a denial included. *)
Theorem view_with_permission_asks_the_factory
    (convert : ascii -> value -> result string) (adapters : adapter_registry)
    (reg : registry) (context request : value) (name : string)
    (factory : adapter_factory) :
  adapters context request name = Some factory ->
  outcome (factory context request reg) <> Return VNone ->
  view_execution_permitted convert adapters context request name reg
  = factory context request reg.
Proof.
  intros Hfactory Hnot_none.
  unfold view_execution_permitted, queryMultiAdapter, bind, ret.
  rewrite Hfactory.
  destruct (factory context request reg) as [t [v|e]]; [|reflexivity].
  cbn in Hnot_none.
  destruct v; try (cbn; rewrite !app_nil_r; reflexivity).
  contradiction Hnot_none. reflexivity.
Qed.

Lemma view_with_permission_asks_the_factory_witness :
  view_execution_permitted render_strings edit_view_only a_context a_request
    "edit" (make_registry (Some fred_authn) (Some closed_authz))
  = ViewPermissionFactory.call (ViewPermissionFactory.Build (VStr "edit"))
      a_context a_request
      (make_registry (Some fred_authn) (Some closed_authz)).
Proof.
  apply (view_with_permission_asks_the_factory render_strings edit_view_only
           (make_registry (Some fred_authn) (Some closed_authz))
           a_context a_request "edit").
  - reflexivity.
  - vm_compute. discriminate.
Defined.

(** X14.  A view protected by a [ViewPermissionFactory] is permitted when no
    authentication policy is registered: the result is the [Allowed] of
    [has_permission], and the authorization policy is not looked up. *)
Theorem protected_view_without_authentication_policy
    (convert : ascii -> value -> result string) (adapters : adapter_registry)
    (reg : registry) (context request : value) (name : string)
    (self : ViewPermissionFactory.t) :
  adapters context request name = Some (ViewPermissionFactory.call self) ->
  reg IAuthenticationPolicy = None ->
  view_execution_permitted convert adapters context request name reg
  = ([Lookup IAuthenticationPolicy],
     Return (VPermitsResult Allowed 1 "No authentication policy in use." []))
  /\ truth (VPermitsResult Allowed 1 "No authentication policy in use." [])
     = true.
Proof.
  intros Hfactory Hnone. split; [|reflexivity].
  unfold view_execution_permitted, queryMultiAdapter, bind, ret.
  rewrite Hfactory. unfold ViewPermissionFactory.call.
  rewrite (has_permission_no_authn reg _ context request Hnone).
  reflexivity.
Qed.

Lemma protected_view_without_authentication_policy_witness :
  view_execution_permitted render_strings edit_view_only a_context a_request
    "edit" (make_registry None None)
  = ([Lookup IAuthenticationPolicy],
     Return (VPermitsResult Allowed 1 "No authentication policy in use." [])).
Proof.
  apply (protected_view_without_authentication_policy render_strings
           edit_view_only (make_registry None None) a_context a_request
           "edit" (ViewPermissionFactory.Build (VStr "edit")));
    reflexivity.
Defined.

(** X15.  When the factory registered for a view gives [None], as a
    [ViewPermissionFactory] does if the [permits] of the authorization
    policy returns [None], [view_execution_permitted] takes the view for
    unprotected and returns a true [Allowed]. *)
Theorem view_factory_giving_none_is_permitted
    (convert : ascii -> value -> result string) (adapters : adapter_registry)
    (reg : registry) (context request : value) (name : string)
    (factory : adapter_factory) (events : list event)
    (rname rcontext : string) :
  adapters context request name = Some factory ->
  factory context request reg = (events, Return VNone) ->
  convert "r"%char (VStr name) = Return rname ->
  convert "r"%char context = Return rcontext ->
  view_execution_permitted convert adapters context request name reg
  = (events,
     Return (VPermitsResult Allowed 1
               ("Allowed: view name " ++ rname ++ " in context " ++ rcontext
                ++ " (no permission defined)") []))
  /\ truth (VPermitsResult Allowed 1
              ("Allowed: view name " ++ rname ++ " in context " ++ rcontext
               ++ " (no permission defined)") []) = true.
Proof.
  intros Hfactory Hnone Hname Hcontext. split; [|reflexivity].
  unfold view_execution_permitted, queryMultiAdapter, bind, lift, ret.
  rewrite Hfactory, Hnone.
  rewrite (format_no_permission_defined convert name context rname rcontext
             Hname Hcontext).
  cbn. rewrite !app_nil_r. reflexivity.
Qed.

Lemma view_factory_giving_none_is_permitted_witness :
  view_execution_permitted render_strings edit_view_only a_context a_request
    "edit" (make_registry (Some fred_authn) (Some silent_authz))
  = ([Lookup IAuthenticationPolicy; Lookup IAuthorizationPolicy;
      Call IAuthenticationPolicy "effective_principals"
        [a_context; a_request] [];
      Call IAuthorizationPolicy "permits"
        [a_context; VList [Everyone; Authenticated; VStr "fred"];
         VStr "edit"] []],
     Return (VPermitsResult Allowed 1
               ("Allowed: view name " ++ "'edit'" ++ " in context "
                ++ "<Model object>" ++ " (no permission defined)") [])).
Proof.
  exact (proj1 (view_factory_giving_none_is_permitted render_strings
                  edit_view_only
                  (make_registry (Some fred_authn) (Some silent_authz))
                  a_context a_request "edit"
                  (ViewPermissionFactory.call
                     (ViewPermissionFactory.Build (VStr "edit")))
                  _ "'edit'" "<Model object>"
                  eq_refl eq_refl eq_refl eq_refl)).
Defined.
